(** * Productivity timer: the Pomodoro state machine of [pomodoro_timer.py]

    A shallow embedding of the classes [State], [PomodoroTimer] and of the
    state-changing callbacks of [PomodoroGUI].  Python integers are [Z],
    the two class-level dictionaries are finite maps whose lookup can raise
    [KeyError], and the one floating-point computation of the program (the
    fill level of the energy-drink picture) is carried out on IEEE-754
    binary64 numbers as specified by [SpecFloat].  Methods are computations
    in a state-and-exception monad over the timer object; the program has
    no handler, so an exception ends the computation. *)

From Stdlib Require Import ZArith QArith Qround Lia.
From Stdlib Require Import Floats.SpecFloat.
From stdpp Require Import base decidable countable gmap strings list pretty.

Local Open Scope Z_scope.

(** ** The [State] enumeration *)

Inductive State : Type :=
  | FOCUS
  | SHORT_BREAK
  | LONG_BREAK.

#[global] Instance State_eq_dec : EqDecision State.
Proof. solve_decision. Defined.

Definition State_to_nat (p : State) : nat :=
  match p with FOCUS => 0%nat | SHORT_BREAK => 1%nat | LONG_BREAK => 2%nat end.

Definition State_of_nat (n : nat) : option State :=
  match n with
  | 0%nat => Some FOCUS
  | 1%nat => Some SHORT_BREAK
  | 2%nat => Some LONG_BREAK
  | _ => None
  end.

#[global] Instance State_countable : Countable State.
Proof.
  refine (inj_countable State_to_nat State_of_nat _).
  intros []; reflexivity.
Defined.

(** [State.X.value] *)
Definition value (p : State) : string :=
  match p with
  | FOCUS => "Focus"
  | SHORT_BREAK => "Short Break"
  | LONG_BREAK => "Long Break"
  end.

(** ** Exceptions and dictionary access *)

Inductive PyError : Type :=
  | KeyError
  | ZeroDivisionError
  | OverflowError
  | ValueError.

Definition result (A : Type) : Type := PyError + A.

(** [d[k]] *)
Definition getitem {V : Type} (d : gmap State V) (k : State) : result V :=
  match d !! k with
  | Some v => inr v
  | None => inl KeyError
  end.

(** ** Class attributes of [PomodoroTimer] *)

Definition DURATIONS : gmap State Z :=
  <[FOCUS := 25 * 60]> (<[SHORT_BREAK := 5 * 60]> (<[LONG_BREAK := 15 * 60]> ∅)).

Definition COLORS : gmap State string :=
  <[FOCUS := "#4CAF50"]> (<[SHORT_BREAK := "#FFEB3B"]> (<[LONG_BREAK := "#F44336"]> ∅)).

(** The duration table read as a function; [DURATIONS_lookup] below shows
    that every key is present. *)
Definition duration (p : State) : Z := default 0 (DURATIONS !! p).

(** ** The timer object *)

Record PomodoroTimer : Type := mkTimer {
  current_state : State;
  time_remaining : Z;
  is_running : bool;
  focus_count : Z;
  timer_id : option string
}.

Definition set_current_state (p : State) (t : PomodoroTimer) : PomodoroTimer :=
  mkTimer p (time_remaining t) (is_running t) (focus_count t) (timer_id t).

Definition set_time_remaining (n : Z) (t : PomodoroTimer) : PomodoroTimer :=
  mkTimer (current_state t) n (is_running t) (focus_count t) (timer_id t).

Definition set_is_running (b : bool) (t : PomodoroTimer) : PomodoroTimer :=
  mkTimer (current_state t) (time_remaining t) b (focus_count t) (timer_id t).

Definition set_focus_count (c : Z) (t : PomodoroTimer) : PomodoroTimer :=
  mkTimer (current_state t) (time_remaining t) (is_running t) c (timer_id t).

Definition set_timer_id (i : option string) (t : PomodoroTimer) : PomodoroTimer :=
  mkTimer (current_state t) (time_remaining t) (is_running t) (focus_count t) i.

(** ** Methods run in a state monad with exceptions *)

Definition M (A : Type) : Type := PomodoroTimer -> result (A * PomodoroTimer).

Definition ret {A : Type} (a : A) : M A := fun t => inr (a, t).

Definition bind {A B : Type} (c : M A) (k : A -> M B) : M B :=
  fun t =>
    match c t with
    | inl e => inl e
    | inr (a, t') => k a t'
    end.

Definition self : M PomodoroTimer := fun t => inr (t, t).

Definition assign (f : PomodoroTimer -> PomodoroTimer) : M unit := fun t => inr (tt, f t).

Definition lift {A : Type} (r : result A) : M A :=
  fun t =>
    match r with
    | inl e => inl e
    | inr a => inr (a, t)
    end.

Declare Scope py_scope.
Delimit Scope py_scope with py.
Notation "x <- c ;; k" := (bind c (fun x => k))
  (at level 100, c at next level, right associativity) : py_scope.
Notation "c ;; k" := (bind c (fun _ => k))
  (at level 100, right associativity) : py_scope.
Local Open Scope py_scope.

(** [PomodoroTimer.__init__] *)
Definition init : result PomodoroTimer :=
  match getitem DURATIONS FOCUS with
  | inl e => inl e
  | inr d => inr (mkTimer FOCUS d false 0 None)
  end.

(** [PomodoroTimer.get_next_state] *)
Definition get_next_state : M State :=
  t <- self ;;
  if decide (current_state t = FOCUS) then
    if focus_count t >=? 3 then ret LONG_BREAK else ret SHORT_BREAK
  else ret FOCUS.

(** [PomodoroTimer.transition_to_next_state] *)
Definition transition_to_next_state : M unit :=
  t <- self ;;
  (if decide (current_state t = FOCUS) then
     assign (set_focus_count (focus_count t + 1)) ;;
     t1 <- self ;;
     if focus_count t1 >=? 4 then assign (set_focus_count 0) else ret tt
   else ret tt) ;;
  next <- get_next_state ;;
  assign (set_current_state next) ;;
  t2 <- self ;;
  d <- lift (getitem DURATIONS (current_state t2)) ;;
  assign (set_time_remaining d).

(** [PomodoroTimer.reset_to_focus] *)
Definition reset_to_focus : M unit :=
  t <- self ;;
  if decide (current_state t = FOCUS) then
    d <- lift (getitem DURATIONS FOCUS) ;;
    assign (set_time_remaining d)
  else
    assign (set_current_state FOCUS) ;;
    d <- lift (getitem DURATIONS FOCUS) ;;
    assign (set_time_remaining d).

(** [PomodoroTimer.tick] *)
Definition tick : M bool :=
  t <- self ;;
  if time_remaining t >? 0 then
    assign (set_time_remaining (time_remaining t - 1)) ;;
    t' <- self ;;
    ret (time_remaining t' =? 0)
  else ret false.

(** ** Binary64 arithmetic, as CPython's [float] performs it *)

Definition prec : Z := 53.
Definition emax : Z := 1024.

(** An integer as an exact, not yet rounded, binary number. *)
Definition exact_int (n : Z) : spec_float :=
  match n with
  | Z0 => S754_zero false
  | Zpos p => S754_finite false p 0
  | Zneg p => S754_finite true p 0
  end.

(** [float(n)]: rounded to nearest even, [OverflowError] beyond the range. *)
Definition float_of_int (n : Z) : result spec_float :=
  match binary_normalize prec emax n 0 false with
  | S754_infinity _ => inl OverflowError
  | x => inr x
  end.

(** [a / b] on two ints: the correctly rounded quotient. *)
Definition int_truediv (a b : Z) : result spec_float :=
  if b =? 0 then inl ZeroDivisionError
  else
    match SFdiv prec emax (exact_int a) (exact_int b) with
    | S754_infinity _ => inl OverflowError
    | q => inr q
    end.

(** [x * n] with a float [x] and an int [n]. *)
Definition float_mul_int (x : spec_float) (n : Z) : result spec_float :=
  match float_of_int n with
  | inl e => inl e
  | inr y => inr (SFmul prec emax x y)
  end.

(** [int(x)]: truncation towards zero. *)
Definition int_of_float (x : spec_float) : result Z :=
  match x with
  | S754_zero _ => inr 0
  | S754_infinity _ => inl OverflowError
  | S754_nan => inl ValueError
  | S754_finite s m e =>
      let a := Z.shiftl (Zpos m) e in
      inr (if s then - a else a)
  end.

(** ** Text *)

(** Python strings are kept as their UTF-8 bytes. *)
Definition newline : string := String (Ascii.ascii_of_nat 10) EmptyString.

(** The format specification [02d]: sign-aware zero padding to width 2. *)
Definition format_02d (n : Z) : string :=
  if n <? 0 then "-" +:+ pretty (- n)
  else if n <? 10 then "0" +:+ pretty n
  else pretty n.

(** [PomodoroTimer.format_time] *)
Definition format_time : M string :=
  t <- self ;;
  let minutes := time_remaining t / 60 in
  let seconds := time_remaining t mod 60 in
  ret (format_02d minutes +:+ ":" +:+ format_02d seconds).

(** ** The energy-drink picture *)

Definition can_top : string := "  ___________  ".
Definition can_pull_tab : string := " |  _____  |  ".
Definition can_opening : string := " | |_____| |  ".
Definition can_neck : string := " |           |  ".
Definition can_empty : string := " |           |  ".
Definition can_liquid : string := " | ▓▓▓▓▓▓▓ |  ".
Definition can_bottom : string := " |___________|  ".

(** [int(time_remaining / total_time * 10)] *)
Definition fill_level_of (time_remaining total_time : Z) : result Z :=
  match int_truediv time_remaining total_time with
  | inl e => inl e
  | inr percent_remaining =>
      match float_mul_int percent_remaining 10 with
      | inl e => inl e
      | inr scaled => int_of_float scaled
      end
  end.

(** First half of [get_energy_drink_display]: the fill level. *)
Definition energy_drink_fill_level : M Z :=
  t <- self ;;
  total_time <- lift (getitem DURATIONS (current_state t)) ;;
  lift (fill_level_of (time_remaining t) total_time).

(** Second half: the lines of the picture, the ten bands from the top. *)
Definition energy_drink_lines (fill_level : Z) : list string :=
  let lines := [can_top; can_pull_tab; can_opening; can_neck] in
  let lines :=
    foldl (fun (lines : list string) (i : Z) =>
             if i <? 10 - fill_level then lines ++ [can_empty]
             else lines ++ [can_liquid])
          lines (seqZ 0 10) in
  lines ++ [can_bottom].

(** [PomodoroTimer.get_energy_drink_display] *)
Definition get_energy_drink_display : M string :=
  fill_level <- energy_drink_fill_level ;;
  ret (String.concat newline (energy_drink_lines fill_level)).

(** ** The callbacks of [PomodoroGUI] that act on the timer

    The widgets are write-only for the program: what they show is a function
    of the timer, collected in [Display].  Cancelling the pending callback
    ([root.after_cancel]) and enabling or disabling buttons leave the fields
    of the timer as they are. *)

Record Display : Type := mkDisplay {
  bg_color : string;
  state_label : string;
  drink_label : string;
  cycle_indicators : list bool
}.

(** [PomodoroGUI.update_display] *)
Definition update_display : M Display :=
  t <- self ;;
  bg <- lift (getitem COLORS (current_state t)) ;;
  drink <- get_energy_drink_display ;;
  t' <- self ;;
  ret (mkDisplay bg (value (current_state t')) drink
         (map (fun i : Z => i <? focus_count t') (seqZ 0 4))).

(** [PomodoroGUI.countdown]; [after_id] is what [root.after] returns.
    [play_alert] only starts a daemon thread and touches no field. *)
Definition countdown (after_id : string) : M unit :=
  t <- self ;;
  if is_running t then
    timer_complete <- tick ;;
    update_display ;;
    if timer_complete : bool then
      transition_to_next_state ;;
      update_display ;;
      assign (set_timer_id (Some after_id))
    else
      assign (set_timer_id (Some after_id))
  else ret tt.

(** [PomodoroGUI.start_timer] *)
Definition start_timer (after_id : string) : M unit :=
  t <- self ;;
  if negb (is_running t) then
    assign (set_is_running true) ;;
    countdown after_id
  else ret tt.

(** [PomodoroGUI.pause_timer] *)
Definition pause_timer : M unit :=
  assign (set_is_running false).

(** [PomodoroGUI.stop_timer] *)
Definition stop_timer : M unit :=
  assign (set_is_running false) ;;
  t <- self ;;
  d <- lift (getitem DURATIONS (current_state t)) ;;
  assign (set_time_remaining d) ;;
  update_display ;;
  ret tt.

(** [PomodoroGUI.reset_timer] *)
Definition reset_timer : M unit :=
  assign (set_is_running false) ;;
  reset_to_focus ;;
  update_display ;;
  ret tt.

(** ** Calls from outside and the states they reach *)

Inductive Call : Type :=
  | CallTick
  | CallTransition
  | CallResetToFocus
  | CallStart (after_id : string)
  | CallPause
  | CallStop
  | CallReset
  | CallCountdown (after_id : string).

Definition call (c : Call) : M unit :=
  match c with
  | CallTick => tick ;; ret tt
  | CallTransition => transition_to_next_state
  | CallResetToFocus => reset_to_focus
  | CallStart after_id => start_timer after_id
  | CallPause => pause_timer
  | CallStop => stop_timer
  | CallReset => reset_timer
  | CallCountdown after_id => countdown after_id
  end.

Inductive reachable : PomodoroTimer -> Prop :=
  | reachable_init t :
      init = inr t -> reachable t
  | reachable_call c t t' :
      reachable t -> call c t = inr (tt, t') -> reachable t'.

(** Running a phase down: [tick] until it reports expiry, then the
    transition, as [countdown] does it. *)
Fixpoint run_down (fuel : nat) : M bool :=
  match fuel with
  | O => ret false
  | S n => expired <- tick ;; if expired : bool then ret true else run_down n
  end.

Definition expire_and_transition : M unit :=
  t <- self ;;
  expired <- run_down (Z.to_nat (time_remaining t)) ;;
  if expired : bool then transition_to_next_state else ret tt.

(** The phase and the counter observed after each of [n] expiries. *)
Fixpoint phase_trace (n : nat) : M (list (State * Z)) :=
  match n with
  | O => ret []
  | S k =>
      expire_and_transition ;;
      t <- self ;;
      rest <- phase_trace k ;;
      ret ((current_state t, focus_count t) :: rest)
  end.

(** ** Vocabulary of the statements *)

Fixpoint run_calls (cs : list Call) : M unit :=
  match cs with
  | [] => ret tt
  | c :: cs' => call c ;; run_calls cs'
  end.

(** The counter after a focus session has been counted. *)
Definition counted (c : Z) : Z := if c + 1 >=? 4 then 0 else c + 1.

(** The invariant of the reachable states. *)
Definition Inv (t : PomodoroTimer) : Prop :=
  0 <= time_remaining t <= duration (current_state t)
  /\ 0 <= focus_count t <= 3
  /\ (current_state t = LONG_BREAK -> focus_count t = 3).

(** A step that does not end a focus session keeps the counter and either
    stays in its phase or goes (back) to [FOCUS]. *)
Definition keeps_count (t t' : PomodoroTimer) : Prop :=
  focus_count t' = focus_count t
  /\ (current_state t' = current_state t \/ current_state t' = FOCUS).

(** A step that ends a focus session counts it and picks the break from the
    counter it has just written. *)
Definition counts_focus (t t' : PomodoroTimer) : Prop :=
  current_state t = FOCUS
  /\ focus_count t' = counted (focus_count t)
  /\ current_state t' = (if focus_count t' >=? 3 then LONG_BREAK else SHORT_BREAK).

(** The check made for one phase duration and one number of seconds left:
    the fill level computed on binary64 is the exact quotient. *)
Definition fill_level_agrees (total_time : Z) (r : Z) : bool :=
  match fill_level_of r total_time with
  | inr n => n =? 10 * r / total_time
  | inl _ => false
  end.

(** The callbacks the window delivers: the four buttons and the scheduled
    countdown.  [tick], the transition and [reset_to_focus] are only called
    from inside them. *)
Definition gui_call (c : Call) : bool :=
  match c with
  | CallStart _ | CallPause | CallStop | CallReset | CallCountdown _ => true
  | CallTick | CallTransition | CallResetToFocus => false
  end.

Inductive gui_reachable : PomodoroTimer -> Prop :=
  | gui_reachable_init t :
      init = inr t -> gui_reachable t
  | gui_reachable_call c t t' :
      gui_reachable t -> gui_call c = true -> call c t = inr (tt, t') ->
      gui_reachable t'.

(** The eight phases of a cycle as the code runs it, with the counter seen
    at the start of each. *)
Definition long_cycle : list (State * Z) :=
  [(SHORT_BREAK, 1); (FOCUS, 1); (SHORT_BREAK, 2); (FOCUS, 2);
   (LONG_BREAK, 3); (FOCUS, 3); (SHORT_BREAK, 0); (FOCUS, 0)].

(** The decimal digit [n] as a character, and the text [MM:SS] of a number
    of seconds below 100 minutes. *)
Definition digit (n : Z) : Ascii.ascii := Ascii.ascii_of_nat (48 + Z.to_nat n).

Definition clock_text (r : Z) : string :=
  String (digit (r / 600))
    (String (digit (r / 60 mod 10))
       (String (Ascii.ascii_of_nat 58)
          (String (digit (r mod 60 / 10))
             (String (digit (r mod 10)) EmptyString)))).

(** A fill level cut to the ten bands of the can. *)
Definition clamp_level (n : Z) : Z := Z.max 0 (Z.min 10 n).

(** What holds in addition between two callbacks of the window: at least
    one second is left, and a running timer has a callback handle. *)
Definition GuiInv (t : PomodoroTimer) : Prop :=
  1 <= time_remaining t
  /\ (is_running t = true -> exists i, timer_id t = Some i).

(** The check made for one duration and one, possibly negative, number of
    seconds: the fill level is the quotient rounded towards zero. *)
Definition fill_level_truncates (total_time : Z) (r : Z) : bool :=
  match fill_level_of r total_time with
  | inr n => n =? Z.quot (10 * r) total_time
  | inl _ => false
  end.

(** * Properties *)

Arguments getitem : simpl never.
Arguments duration : simpl never.

(** ** The two tables *)

Lemma DURATIONS_lookup (p : State) :
  DURATIONS !! p =
  Some match p with FOCUS => 1500 | SHORT_BREAK => 300 | LONG_BREAK => 900 end.
Proof. destruct p; vm_compute; reflexivity. Qed.

Lemma duration_table (p : State) :
  duration p = match p with FOCUS => 1500 | SHORT_BREAK => 300 | LONG_BREAK => 900 end.
Proof. unfold duration. rewrite DURATIONS_lookup. reflexivity. Qed.

Lemma getitem_DURATIONS (p : State) : getitem DURATIONS p = inr (duration p).
Proof.
  unfold getitem, duration. rewrite DURATIONS_lookup. reflexivity.
Qed.

Lemma getitem_COLORS (p : State) : exists c, getitem COLORS p = inr c.
Proof. destruct p; eexists; vm_compute; reflexivity. Qed.

Lemma duration_pos (p : State) : 0 < duration p.
Proof. rewrite duration_table. destruct p; lia. Qed.

(** ** What each method of the timer computes *)

Lemma tick_eq (t : PomodoroTimer) :
  tick t =
  inr (if time_remaining t >? 0
       then (time_remaining t - 1 =? 0, set_time_remaining (time_remaining t - 1) t)
       else (false, t)).
Proof.
  unfold tick, bind, self, assign, ret.
  destruct (time_remaining t >? 0); reflexivity.
Qed.

Lemma get_next_state_eq (t : PomodoroTimer) :
  get_next_state t =
  inr (match current_state t with
       | FOCUS => if focus_count t >=? 3 then LONG_BREAK else SHORT_BREAK
       | _ => FOCUS
       end, t).
Proof.
  unfold get_next_state, bind, self, ret.
  destruct (current_state t); simpl; try reflexivity.
  destruct (focus_count t >=? 3); reflexivity.
Qed.

Lemma transition_eq (t : PomodoroTimer) :
  transition_to_next_state t =
  inr (tt,
       match current_state t with
       | FOCUS =>
           let c := counted (focus_count t) in
           let p := if c >=? 3 then LONG_BREAK else SHORT_BREAK in
           mkTimer p (duration p) (is_running t) c (timer_id t)
       | _ => mkTimer FOCUS (duration FOCUS) (is_running t) (focus_count t) (timer_id t)
       end).
Proof.
  unfold transition_to_next_state, counted.
  destruct t as [p r b c i]; destruct p;
    cbv [bind self assign ret lift get_next_state decide State_eq_dec
         State_rect State_rec sumbool_rec sumbool_rect decide_rel
         current_state time_remaining is_running focus_count timer_id
         set_focus_count set_current_state set_time_remaining];
    try (rewrite getitem_DURATIONS; reflexivity).
  destruct (c + 1 >=? 4);
    [destruct (0 >=? 3) | destruct (c + 1 >=? 3)];
    rewrite getitem_DURATIONS; reflexivity.
Qed.

Lemma reset_to_focus_eq (t : PomodoroTimer) :
  reset_to_focus t =
  inr (tt, mkTimer FOCUS (duration FOCUS) (is_running t) (focus_count t) (timer_id t)).
Proof.
  unfold reset_to_focus, bind, self, assign, lift.
  rewrite getitem_DURATIONS.
  destruct t as [p r b c i]; destruct p; reflexivity.
Qed.

(** ** The fill level on binary64 numbers

    For every phase and every number of seconds the phase can have left, the
    rounded quotient, the rounded product and the truncation are carried out
    and compared with the exact quotient. *)

Lemma fill_level_checked :
  forallb (fun p => forallb (fill_level_agrees (duration p)) (seqZ 0 (duration p + 1)))
          [FOCUS; SHORT_BREAK; LONG_BREAK] = true.
Proof. vm_compute. reflexivity. Qed.

Lemma fill_level_of_exact (p : State) (r : Z) :
  0 <= r <= duration p ->
  fill_level_of r (duration p) = inr (10 * r / duration p).
Proof.
  intros Hr.
  pose proof fill_level_checked as Hall.
  rewrite forallb_forall in Hall.
  assert (Hp : In p [FOCUS; SHORT_BREAK; LONG_BREAK])
    by (destruct p; simpl; tauto).
  specialize (Hall p Hp). rewrite forallb_forall in Hall.
  assert (Hin : In r (seqZ 0 (duration p + 1))).
  { apply list_elem_of_In, elem_of_seqZ. lia. }
  specialize (Hall r Hin). unfold fill_level_agrees in Hall.
  destruct (fill_level_of r (duration p)) as [e | n]; [discriminate |].
  apply Z.eqb_eq in Hall. congruence.
Qed.

Lemma energy_drink_fill_level_eq (t : PomodoroTimer) :
  0 <= time_remaining t <= duration (current_state t) ->
  energy_drink_fill_level t =
  inr (10 * time_remaining t / duration (current_state t), t).
Proof.
  intros Hr. unfold energy_drink_fill_level, bind, self, lift.
  rewrite getitem_DURATIONS, (fill_level_of_exact _ _ Hr). reflexivity.
Qed.

Lemma get_energy_drink_display_eq (t : PomodoroTimer) :
  0 <= time_remaining t <= duration (current_state t) ->
  get_energy_drink_display t =
  inr (String.concat newline
         (energy_drink_lines (10 * time_remaining t / duration (current_state t))), t).
Proof.
  intros Hr. unfold get_energy_drink_display, bind, ret.
  rewrite (energy_drink_fill_level_eq _ Hr). reflexivity.
Qed.

Lemma update_display_eq (t : PomodoroTimer) :
  0 <= time_remaining t <= duration (current_state t) ->
  exists d, update_display t = inr (d, t)
    /\ cycle_indicators d = map (fun i : Z => i <? focus_count t) (seqZ 0 4).
Proof.
  intros Hr. unfold update_display, bind, self, lift, ret.
  destruct (getitem_COLORS (current_state t)) as [c ->].
  rewrite (get_energy_drink_display_eq _ Hr).
  eexists; split; reflexivity.
Qed.

(** ** Sequencing *)

Lemma bind_inr {A B : Type} (c : M A) (k : A -> M B) (t t' : PomodoroTimer) (a : A) :
  c t = inr (a, t') -> bind c k t = k a t'.
Proof. intros H. unfold bind. rewrite H. reflexivity. Qed.

Lemma tick_pos (t : PomodoroTimer) :
  0 < time_remaining t ->
  tick t = inr (time_remaining t - 1 =? 0, set_time_remaining (time_remaining t - 1) t).
Proof.
  intros H. rewrite tick_eq.
  destruct (Z.gtb_spec (time_remaining t) 0) as [_ | Hle]; [reflexivity | lia].
Qed.

Lemma tick_nonpos (t : PomodoroTimer) :
  time_remaining t <= 0 -> tick t = inr (false, t).
Proof.
  intros H. rewrite tick_eq.
  destruct (Z.gtb_spec (time_remaining t) 0) as [Hgt | _]; [lia | reflexivity].
Qed.

(** ** The callbacks *)

Ltac run_py :=
  cbv [bind self assign ret lift
       set_current_state set_time_remaining set_is_running set_focus_count
       set_timer_id];
  cbn [current_state time_remaining is_running focus_count timer_id].

Ltac redraw :=
  match goal with
  | |- context [update_display ?x] =>
      let d := fresh "d" in
      let Hr := fresh "Hr" in
      assert (Hr : 0 <= time_remaining x <= duration (current_state x))
        by (run_py; lia);
      destruct (update_display_eq x Hr) as (d & -> & _); clear Hr
  end.

Lemma stop_timer_eq (t : PomodoroTimer) :
  stop_timer t =
  inr (tt, mkTimer (current_state t) (duration (current_state t)) false
             (focus_count t) (timer_id t)).
Proof.
  pose proof (duration_pos (current_state t)) as Hd.
  unfold stop_timer. run_py. rewrite getitem_DURATIONS. run_py.
  redraw. reflexivity.
Qed.

Lemma reset_timer_eq (t : PomodoroTimer) :
  reset_timer t =
  inr (tt, mkTimer FOCUS (duration FOCUS) false (focus_count t) (timer_id t)).
Proof.
  pose proof (duration_pos FOCUS) as Hd.
  unfold reset_timer. run_py. rewrite reset_to_focus_eq. run_py.
  redraw. reflexivity.
Qed.

(** ** The invariant is kept by every call *)

Lemma Inv_init (t : PomodoroTimer) : init = inr t -> Inv t.
Proof.
  unfold init. rewrite getitem_DURATIONS. intros [= <-].
  unfold Inv; cbn. pose proof (duration_pos FOCUS).
  repeat split; try lia. discriminate.
Qed.

Lemma transition_step (t : PomodoroTimer) :
  Inv t ->
  exists t', transition_to_next_state t = inr (tt, t') /\ Inv t'
    /\ (keeps_count t t' \/ counts_focus t t')
    /\ time_remaining t' = duration (current_state t')
    /\ is_running t' = is_running t /\ timer_id t' = timer_id t.
Proof.
  intros (Hr & Hc & Hl). rewrite transition_eq.
  destruct t as [p r b c i]; cbn in *.
  destruct p; eexists; (split; [reflexivity |]); cbv zeta.
  - unfold Inv, keeps_count, counts_focus, counted; cbn.
    destruct (Z.geb_spec (c + 1) 4); cbn;
      [| destruct (Z.geb_spec (c + 1) 3); cbn].
    all: repeat split; try lia; try discriminate; try (right; repeat split; lia).
    all: match goal with |- context [duration ?p] => pose proof (duration_pos p); lia end.
  - pose proof (duration_pos FOCUS).
    unfold Inv, keeps_count; cbn.
    repeat split; try lia; try discriminate. left; split; auto.
  - pose proof (duration_pos FOCUS).
    unfold Inv, keeps_count; cbn.
    repeat split; try lia; try discriminate. left; split; auto.
Qed.

Lemma tick_step (t : PomodoroTimer) :
  Inv t ->
  exists b t', tick t = inr (b, t') /\ Inv t' /\ keeps_count t t'
    /\ current_state t' = current_state t
    /\ is_running t' = is_running t /\ timer_id t' = timer_id t.
Proof.
  intros (Hr & Hc & Hl). rewrite tick_eq.
  destruct (Z.gtb_spec (time_remaining t) 0); do 2 eexists;
    (split; [reflexivity |]); unfold Inv, keeps_count;
    destruct t as [p r b c i]; cbn in *; repeat split; auto; lia.
Qed.

Lemma set_timer_id_Inv (i : option string) (t : PomodoroTimer) :
  Inv t -> Inv (set_timer_id i t).
Proof. destruct t; exact id. Qed.

Lemma countdown_step (after_id : string) (t : PomodoroTimer) :
  Inv t ->
  exists t', countdown after_id t = inr (tt, t') /\ Inv t'
    /\ (keeps_count t t' \/ counts_focus t t').
Proof.
  intros HI. unfold countdown. run_py.
  destruct (is_running t).
  2:{ exists t. repeat split; try apply HI. left; split; auto. }
  destruct (tick_step t HI) as (b & t1 & -> & HI1 & Hk1 & Hp1 & _).
  pose proof HI1 as (Hr1 & _).
  redraw. destruct b.
  - destruct (transition_step t1 HI1) as (t2 & -> & HI2 & Hs2 & Ht2 & _).
    pose proof HI2 as (Hr2 & _).
    redraw. eexists; split; [reflexivity |]. split.
    + destruct t2; exact HI2.
    + destruct Hk1 as (Hk1 & _). unfold keeps_count, counts_focus in *.
      destruct Hs2 as [(Hc2 & Hp2) | (Hf2 & Hc2 & Hp2)]; [left | right];
        destruct t2; cbn in *.
      * split; [congruence |]. rewrite <- Hp1. exact Hp2.
      * repeat split; congruence.
  - eexists; split; [reflexivity |]. split.
    + destruct t1; exact HI1.
    + left. destruct t1; exact Hk1.
Qed.

Lemma call_step (c : Call) (t : PomodoroTimer) :
  Inv t ->
  exists t', call c t = inr (tt, t') /\ Inv t'
    /\ (keeps_count t t' \/ counts_focus t t').
Proof.
  intros HI. destruct c; cbn [call].
  - destruct (tick_step t HI) as (b & t' & Ht & HI' & Hk & _).
    exists t'. unfold bind. rewrite Ht. auto.
  - destruct (transition_step t HI) as (t' & Ht & HI' & Hs & _). eauto.
  - rewrite reset_to_focus_eq. eexists; split; [reflexivity |].
    destruct HI as (Hr & Hc & Hl). pose proof (duration_pos FOCUS).
    unfold Inv, keeps_count; cbn. repeat split; auto; try lia; discriminate.
  - unfold start_timer. run_py.
    destruct (is_running t) eqn:Hrun; cbn [negb].
    + exists t. repeat split; try apply HI. left; split; auto.
    + assert (HI0 : Inv (mkTimer (current_state t) (time_remaining t) true
                           (focus_count t) (timer_id t))) by exact HI.
      destruct (countdown_step after_id _ HI0) as (t' & -> & HI' & Hs).
      exists t'. auto.
  - exists (set_is_running false t). repeat split; try apply HI.
    left; split; auto.
  - rewrite stop_timer_eq. eexists; split; [reflexivity |].
    destruct HI as (Hr & Hc & Hl). pose proof (duration_pos (current_state t)).
    unfold Inv, keeps_count; cbn. repeat split; auto; lia.
  - rewrite reset_timer_eq. eexists; split; [reflexivity |].
    destruct HI as (Hr & Hc & Hl). pose proof (duration_pos FOCUS).
    unfold Inv, keeps_count; cbn. repeat split; auto; try lia; discriminate.
  - apply countdown_step, HI.
Qed.

Lemma reachable_Inv (t : PomodoroTimer) : reachable t -> Inv t.
Proof.
  induction 1 as [t Hinit | c t t' _ IH Hcall].
  - apply Inv_init, Hinit.
  - destruct (call_step c t IH) as (t'' & Ht & HI & _).
    rewrite Hcall in Ht. injection Ht as <-. exact HI.
Qed.

(** ** Running a phase down *)

Lemma run_down_expires (n : nat) (t : PomodoroTimer) :
  time_remaining t = Z.of_nat (S n) ->
  run_down (S n) t = inr (true, set_time_remaining 0 t).
Proof.
  revert t. induction n as [| n IH]; intros t Ht.
  - cbn [run_down]. rewrite (bind_inr _ _ _ _ _ (tick_pos t ltac:(lia))).
    replace (time_remaining t - 1) with 0 by lia. reflexivity.
  - change (run_down (S (S n))) with
      (expired <- tick ;; if expired : bool then ret true else run_down (S n)).
    rewrite (bind_inr _ _ _ _ _ (tick_pos t ltac:(lia))).
    destruct (Z.eqb_spec (time_remaining t - 1) 0) as [H0 | _]; [lia |].
    rewrite IH by (cbn; lia). destruct t; reflexivity.
Qed.

Lemma expire_and_transition_eq (t : PomodoroTimer) :
  0 < time_remaining t ->
  expire_and_transition t = transition_to_next_state (set_time_remaining 0 t).
Proof.
  intros Hpos. unfold expire_and_transition.
  rewrite (bind_inr _ _ t t t eq_refl).
  destruct (Z.to_nat (time_remaining t)) as [| n] eqn:Hn; [lia |].
  rewrite (bind_inr _ _ _ _ _ (run_down_expires n t ltac:(lia))).
  reflexivity.
Qed.

Lemma phase_trace_S (k : nat) (t : PomodoroTimer) :
  0 < time_remaining t ->
  phase_trace (S k) t =
  match transition_to_next_state (set_time_remaining 0 t) with
  | inl e => inl e
  | inr (_, t1) =>
      match phase_trace k t1 with
      | inl e => inl e
      | inr (rest, t2) => inr ((current_state t1, focus_count t1) :: rest, t2)
      end
  end.
Proof.
  intros Hpos. cbn [phase_trace]. unfold bind at 1.
  rewrite (expire_and_transition_eq t Hpos).
  destruct (transition_to_next_state _) as [e | [[] t1]]; [reflexivity |].
  unfold bind, self, ret. reflexivity.
Qed.

Ltac next_phase :=
  rewrite phase_trace_S by (cbn; first [lia | apply duration_pos]);
  rewrite transition_eq; cbv -[phase_trace duration].

(** Eight expiries from the start of a cycle: a long break after the third
    focus session, a short one after the fourth, and the cycle starts over. *)
Lemma cycle_period (t : PomodoroTimer) :
  current_state t = FOCUS -> focus_count t = 0 -> 0 < time_remaining t ->
  phase_trace 8 t =
  inr ([(SHORT_BREAK, 1); (FOCUS, 1); (SHORT_BREAK, 2); (FOCUS, 2);
        (LONG_BREAK, 3); (FOCUS, 3); (SHORT_BREAK, 0); (FOCUS, 0)],
       mkTimer FOCUS (duration FOCUS) (is_running t) 0 (timer_id t)).
Proof.
  destruct t as [p r b c i]; cbn -[phase_trace]; intros -> -> Hr.
  do 8 next_phase. reflexivity.
Qed.

(** ** The phase cycle *)

(** The break chosen at the end of a focus session, in terms of the counter
    before the call. *)
Lemma transition_from_focus (t : PomodoroTimer) :
  current_state t = FOCUS -> 0 <= focus_count t <= 3 ->
  transition_to_next_state t =
  inr (tt,
       let p := if focus_count t =? 2 then LONG_BREAK else SHORT_BREAK in
       mkTimer p (duration p) (is_running t) ((focus_count t + 1) mod 4) (timer_id t)).
Proof.
  intros Hp Hc. rewrite transition_eq, Hp. unfold counted. cbv zeta.
  rewrite <- (Z2Nat.id (focus_count t)) by lia.
  assert (Hk : (Z.to_nat (focus_count t) <= 3)%nat) by lia.
  revert Hk. generalize (Z.to_nat (focus_count t)) as k. intros k Hk.
  do 4 (destruct k as [| k]; [reflexivity |]). lia.
Qed.

(** C1 (the code departs from the claim).  From the fresh timer, running
    each phase down and making the transition nine times gives the phases
    Short Break, Focus, Short Break, Focus, Long Break, Focus, Short Break,
    Focus, Short Break: the long break follows the third focus session of
    a cycle and a short break follows the fourth, where the claim puts the
    long break after the fourth.  The counter after the focus expiries is
    1, 2, 3, 0, 1 as claimed. *)
Theorem cycle_trace_from_init :
  init = inr (mkTimer FOCUS 1500 false 0 None)
  /\ phase_trace 9 (mkTimer FOCUS 1500 false 0 None) =
     inr ([(SHORT_BREAK, 1); (FOCUS, 1); (SHORT_BREAK, 2); (FOCUS, 2);
           (LONG_BREAK, 3); (FOCUS, 3); (SHORT_BREAK, 0); (FOCUS, 0);
           (SHORT_BREAK, 1)],
          mkTimer SHORT_BREAK 300 false 1 None).
Proof. split; vm_compute; reflexivity. Qed.

(** C2 (the code departs from the claim).  In [FOCUS] the transition
    picks the break from the counter it has just incremented and wrapped:
    with two sessions counted it enters the long break and leaves the
    counter at 3; with three counted it wraps the counter to 0 and enters
    a short break.  The claim has the short break in the first case and
    the long break, with the counter at 0, in the second. *)
Theorem transition_picks_break_from_new_count :
  transition_to_next_state (mkTimer FOCUS 0 true 2 None) =
    inr (tt, mkTimer LONG_BREAK 900 true 3 None)
  /\ transition_to_next_state (mkTimer FOCUS 0 true 3 None) =
    inr (tt, mkTimer SHORT_BREAK 300 true 0 None).
Proof. split; vm_compute; reflexivity. Qed.

(** ** The methods one by one *)

(** C3.  With [n > 0] seconds left, [tick] leaves [n - 1], answers whether
    that is 0, and keeps every other field; with 0 left it answers false
    and changes nothing; the seconds left never become negative. *)
Theorem tick_spec (t : PomodoroTimer) :
  (0 < time_remaining t ->
   tick t = inr (time_remaining t - 1 =? 0,
                 mkTimer (current_state t) (time_remaining t - 1) (is_running t)
                   (focus_count t) (timer_id t)))
  /\ (time_remaining t = 0 -> tick t = inr (false, t))
  /\ (0 <= time_remaining t ->
      forall b t', tick t = inr (b, t') -> 0 <= time_remaining t').
Proof.
  split; [| split].
  - intros Hpos. rewrite (tick_pos t Hpos). reflexivity.
  - intros Hz. apply tick_nonpos. lia.
  - intros Hge b t'. rewrite tick_eq.
    destruct (Z.gtb_spec (time_remaining t) 0); intros [= <- <-]; cbn; lia.
Qed.

Lemma tick_spec_witness :
  tick (mkTimer FOCUS 1 true 0 None) = inr (true, mkTimer FOCUS 0 true 0 None)
  /\ tick (mkTimer FOCUS 0 true 0 None) = inr (false, mkTimer FOCUS 0 true 0 None)
  /\ 0 <= time_remaining (mkTimer FOCUS 0 true 0 None).
Proof.
  split; [| split].
  - apply (proj1 (tick_spec (mkTimer FOCUS 1 true 0 None))). reflexivity.
  - apply (proj1 (proj2 (tick_spec (mkTimer FOCUS 0 true 0 None)))). reflexivity.
  - apply (proj2 (proj2 (tick_spec (mkTimer FOCUS 1 true 0 None)))
             ltac:(cbn; lia) true (mkTimer FOCUS 0 true 0 None)).
    reflexivity.
Defined.

(** C4.  [get_next_state] changes no field and answers [LONG_BREAK] in
    [FOCUS] with the counter at 3 or more, [SHORT_BREAK] in [FOCUS] with
    the counter below 3, and [FOCUS] in either break. *)
Theorem get_next_state_spec (t : PomodoroTimer) :
  (current_state t = FOCUS -> 3 <= focus_count t ->
   get_next_state t = inr (LONG_BREAK, t))
  /\ (current_state t = FOCUS -> focus_count t < 3 ->
      get_next_state t = inr (SHORT_BREAK, t))
  /\ (current_state t = SHORT_BREAK \/ current_state t = LONG_BREAK ->
      get_next_state t = inr (FOCUS, t)).
Proof.
  rewrite get_next_state_eq. split; [| split].
  - intros -> Hc. destruct (Z.geb_spec (focus_count t) 3); [reflexivity | lia].
  - intros -> Hc. destruct (Z.geb_spec (focus_count t) 3); [lia | reflexivity].
  - intros [-> | ->]; reflexivity.
Qed.

Lemma get_next_state_spec_witness :
  get_next_state (mkTimer FOCUS 0 true 3 None) = inr (LONG_BREAK, mkTimer FOCUS 0 true 3 None)
  /\ get_next_state (mkTimer FOCUS 0 true 2 None) = inr (SHORT_BREAK, mkTimer FOCUS 0 true 2 None)
  /\ get_next_state (mkTimer LONG_BREAK 0 true 3 None) = inr (FOCUS, mkTimer LONG_BREAK 0 true 3 None).
Proof.
  split; [| split].
  - apply (proj1 (get_next_state_spec (mkTimer FOCUS 0 true 3 None)));
      [reflexivity | cbn; lia].
  - apply (proj1 (proj2 (get_next_state_spec (mkTimer FOCUS 0 true 2 None))));
      reflexivity.
  - apply (proj2 (proj2 (get_next_state_spec (mkTimer LONG_BREAK 0 true 3 None)))).
    right; reflexivity.
Defined.

(** C5.  In [FOCUS], [reset_to_focus] sets the seconds left to 1500 and
    changes nothing else; in a break it sets the phase to [FOCUS] and the
    seconds left to 1500 and keeps the counter. *)
Theorem reset_to_focus_spec (t : PomodoroTimer) :
  (current_state t = FOCUS ->
   reset_to_focus t =
   inr (tt, mkTimer (current_state t) 1500 (is_running t) (focus_count t) (timer_id t)))
  /\ (current_state t = SHORT_BREAK \/ current_state t = LONG_BREAK ->
      reset_to_focus t =
      inr (tt, mkTimer FOCUS 1500 (is_running t) (focus_count t) (timer_id t))).
Proof.
  rewrite reset_to_focus_eq, duration_table. split.
  - intros ->. reflexivity.
  - intros _. reflexivity.
Qed.

Lemma reset_to_focus_spec_witness :
  reset_to_focus (mkTimer FOCUS 800 false 2 None) =
    inr (tt, mkTimer FOCUS 1500 false 2 None)
  /\ reset_to_focus (mkTimer SHORT_BREAK 100 false 2 None) =
    inr (tt, mkTimer FOCUS 1500 false 2 None).
Proof.
  split.
  - apply (proj1 (reset_to_focus_spec (mkTimer FOCUS 800 false 2 None))).
    reflexivity.
  - apply (proj2 (reset_to_focus_spec (mkTimer SHORT_BREAK 100 false 2 None))).
    left; reflexivity.
Defined.

(** C6.  [stop_timer] clears the running flag, restores the full duration
    of the current phase and keeps the phase and the counter; from a long
    break with 50 seconds left it leaves a stopped long break with 900. *)
Theorem stop_timer_spec :
  (forall t : PomodoroTimer,
     stop_timer t =
     inr (tt, mkTimer (current_state t) (duration (current_state t)) false
                (focus_count t) (timer_id t)))
  /\ (forall (b : bool) (c : Z) (i : option string),
        stop_timer (mkTimer LONG_BREAK 50 b c i) =
        inr (tt, mkTimer LONG_BREAK 900 false c i)).
Proof.
  split.
  - apply stop_timer_eq.
  - intros b c i. rewrite stop_timer_eq. cbn. rewrite duration_table. reflexivity.
Qed.

(** ** Reachable states *)

Lemma reachable_run_calls (cs : list Call) (t t' : PomodoroTimer) :
  reachable t -> run_calls cs t = inr (tt, t') -> reachable t'.
Proof.
  revert t. induction cs as [| c cs IH]; intros t Hreach; cbn [run_calls].
  - intros [= <-]. exact Hreach.
  - unfold bind. destruct (call c t) as [e | [[] t1]] eqn:Hc; [discriminate |].
    intros Hrest. apply (IH t1); [| exact Hrest].
    apply (reachable_call c t t1 Hreach Hc).
Qed.

Lemma reachable_from_init (cs : list Call) (t t' : PomodoroTimer) :
  init = inr t -> run_calls cs t = inr (tt, t') -> reachable t'.
Proof.
  intros Hinit. apply reachable_run_calls, reachable_init, Hinit.
Qed.

(** C7.  In every state reached from the fresh timer by calls of tick,
    the transition, reset, stop, start, pause (and the scheduled countdown),
    the seconds left lie between 0 and the duration of the current phase,
    the durations being 1500, 300 and 900, and the counter lies between 0
    and 3. *)
Theorem reachable_bounds (t : PomodoroTimer) :
  reachable t ->
  0 <= time_remaining t <= duration (current_state t)
  /\ 0 <= focus_count t <= 3
  /\ duration FOCUS = 1500 /\ duration SHORT_BREAK = 300 /\ duration LONG_BREAK = 900.
Proof.
  intros Hreach. destruct (reachable_Inv t Hreach) as (Hr & Hc & _).
  repeat split; try lia; apply duration_table.
Qed.

Lemma reachable_bounds_witness :
  reachable (mkTimer FOCUS 1498 false 0 (Some "after#1"))
  /\ 0 <= 1498 <= duration FOCUS.
Proof.
  assert (Hreach : reachable (mkTimer FOCUS 1498 false 0 (Some "after#1"))).
  { apply (reachable_from_init [CallStart "after#1"; CallTick; CallPause]
             (mkTimer FOCUS 1500 false 0 None)); vm_compute; reflexivity. }
  split; [exact Hreach |].
  exact (proj1 (reachable_bounds _ Hreach)).
Defined.

(** ** The progress indicator and the long break *)

(** C8.  In a reachable state a long break has the counter at 3: three of
    the four indicator slots are filled, every call made during the long
    break leaves the counter at 3, and a call that takes the counter from a
    non-zero value to 0 is made in [FOCUS] with the counter at 3 and ends
    that focus session with a short break. *)
Theorem long_break_count (t : PomodoroTimer) :
  reachable t ->
  (current_state t = LONG_BREAK ->
     focus_count t = 3
     /\ (exists d, update_display t = inr (d, t)
           /\ cycle_indicators d = [true; true; true; false])
     /\ (forall c t', call c t = inr (tt, t') -> focus_count t' = 3))
  /\ (forall c t', call c t = inr (tt, t') ->
        focus_count t <> 0 -> focus_count t' = 0 ->
        current_state t = FOCUS /\ focus_count t = 3
        /\ current_state t' = SHORT_BREAK).
Proof.
  intros Hreach. pose proof (reachable_Inv t Hreach) as HI.
  pose proof HI as (Hr & Hc & Hl). split.
  - intros Hlb. specialize (Hl Hlb). split; [exact Hl | split].
    + destruct (update_display_eq t Hr) as (d & Hd & Hind).
      exists d. split; [exact Hd |]. rewrite Hind, Hl. reflexivity.
    + intros c t' Hcall.
      destruct (call_step c t HI) as (t'' & Ht & _ & Hs).
      rewrite Hcall in Ht. injection Ht as <-.
      destruct Hs as [(Hk & _) | (Hf & _)]; congruence.
  - intros c t' Hcall Hnz Hz.
    destruct (call_step c t HI) as (t'' & Ht & _ & Hs).
    rewrite Hcall in Ht. injection Ht as <-.
    destruct Hs as [(Hk & _) | (Hf & Hk & Hp)]; [congruence |].
    rewrite Hz in Hp. rewrite Hz in Hk. unfold counted in Hk.
    destruct (Z.geb_spec (focus_count t + 1) 4); [| lia].
    repeat split; [exact Hf | lia | exact Hp].
Qed.

Lemma long_break_count_witness :
  reachable (mkTimer LONG_BREAK 900 false 3 None)
  /\ focus_count (mkTimer LONG_BREAK 900 false 3 None) = 3.
Proof.
  assert (Hreach : reachable (mkTimer LONG_BREAK 900 false 3 None)).
  { apply (reachable_from_init
             [CallTransition; CallTransition; CallTransition; CallTransition;
              CallTransition]
             (mkTimer FOCUS 1500 false 0 None)); vm_compute; reflexivity. }
  split; [exact Hreach |].
  exact (proj1 (proj1 (long_break_count _ Hreach) eq_refl)).
Defined.

(** ** The energy-drink picture *)

Lemma energy_drink_lines_bands (n : Z) :
  0 <= n <= 10 ->
  energy_drink_lines n =
  [can_top; can_pull_tab; can_opening; can_neck]
  ++ replicate (Z.to_nat (10 - n)) can_empty
  ++ replicate (Z.to_nat n) can_liquid
  ++ [can_bottom].
Proof.
  intros Hn. rewrite <- (Z2Nat.id n) by lia.
  assert (Hk : (Z.to_nat n <= 10)%nat) by lia.
  revert Hk. generalize (Z.to_nat n) as k. intros k Hk.
  do 11 (destruct k as [| k]; [vm_compute; reflexivity |]). lia.
Qed.

Lemma Qfloor_ratio (r d : Z) :
  0 < d ->
  Qfloor (inject_Z r / inject_Z d * inject_Z 10)%Q = 10 * r / d.
Proof.
  intros Hd. destruct d as [| d | d]; try lia.
  unfold Qfloor, Qdiv, Qmult, Qinv, inject_Z. cbn.
  replace (r * 1 * 10) with (10 * r) by lia.
  replace (Z.pos (1 * d * 1)) with (Z.pos d) by lia.
  reflexivity.
Qed.

Lemma fill_level_range (p : State) (r : Z) :
  0 <= r <= duration p ->
  0 <= 10 * r / duration p <= 10
  /\ (10 * r / duration p = 10 <-> r = duration p)
  /\ (10 * r / duration p = 0 <-> 10 * r < duration p).
Proof.
  rewrite duration_table. intros Hr.
  destruct p; repeat split; intros; Z.div_mod_to_equations; lia.
Qed.

(** C9.  In a reachable state the fill level of the picture is the floor
    of ten times the exact ratio of the seconds left to the duration of the
    current phase; it is 10 exactly when the full duration is left and 0
    exactly when less than a tenth of it is left; and of the ten bands of
    the can the lowest [level] are drawn filled, the others above them
    empty. *)
Theorem fill_level_spec (t : PomodoroTimer) :
  reachable t ->
  exists level : Z,
    energy_drink_fill_level t = inr (level, t)
    /\ level =
       Qfloor (inject_Z (time_remaining t) / inject_Z (duration (current_state t))
               * inject_Z 10)%Q
    /\ (level = 10 <-> time_remaining t = duration (current_state t))
    /\ (level = 0 <-> 10 * time_remaining t < duration (current_state t))
    /\ get_energy_drink_display t =
       inr (String.concat newline
              ([can_top; can_pull_tab; can_opening; can_neck]
               ++ replicate (Z.to_nat (10 - level)) can_empty
               ++ replicate (Z.to_nat level) can_liquid
               ++ [can_bottom]), t).
Proof.
  intros Hreach. destruct (reachable_Inv t Hreach) as (Hr & _).
  destruct (fill_level_range _ _ Hr) as (Hlev & Hfull & Hempty).
  exists (10 * time_remaining t / duration (current_state t)).
  split; [apply energy_drink_fill_level_eq, Hr |].
  split; [symmetry; apply Qfloor_ratio, duration_pos |].
  split; [exact Hfull |]. split; [exact Hempty |].
  rewrite (get_energy_drink_display_eq t Hr), (energy_drink_lines_bands _ Hlev).
  reflexivity.
Qed.

Lemma fill_level_spec_witness :
  reachable (mkTimer FOCUS 1349 true 0 (Some "after#1"))
  /\ energy_drink_fill_level (mkTimer FOCUS 1349 true 0 (Some "after#1")) =
     inr (8, mkTimer FOCUS 1349 true 0 (Some "after#1")).
Proof.
  assert (Hreach : reachable (mkTimer FOCUS 1349 true 0 (Some "after#1"))).
  { apply (reachable_from_init
             (CallStart "after#1" :: repeat CallTick 150)
             (mkTimer FOCUS 1500 false 0 None)); vm_compute; reflexivity. }
  split; [exact Hreach |].
  destruct (fill_level_spec _ Hreach) as (level & Hlevel & Hfloor & _).
  rewrite Hlevel, Hfloor. reflexivity.
Defined.

(** ** No call fails *)

(** C10.  On a reachable state none of tick, the query for the next
    state, the transition, reset, stop, the time formatter and the picture
    raises: both tables have an entry for each of the three states, every
    duration is positive, and the division in the fill level is never a
    division by zero; so every call answers and leaves a state. *)
Theorem engine_total (t : PomodoroTimer) :
  reachable t ->
  (exists b t', tick t = inr (b, t'))
  /\ (exists p, get_next_state t = inr (p, t))
  /\ (exists t', transition_to_next_state t = inr (tt, t'))
  /\ (exists t', reset_to_focus t = inr (tt, t'))
  /\ (exists t', stop_timer t = inr (tt, t'))
  /\ (exists s, format_time t = inr (s, t))
  /\ (exists n, energy_drink_fill_level t = inr (n, t))
  /\ (exists s, get_energy_drink_display t = inr (s, t))
  /\ (forall c, exists t', call c t = inr (tt, t'))
  /\ (forall p, exists d, getitem DURATIONS p = inr d /\ 0 < d)
  /\ (forall p, exists c, getitem COLORS p = inr c)
  /\ (forall p r, int_truediv r (duration p) <> inl ZeroDivisionError).
Proof.
  intros Hreach. pose proof (reachable_Inv t Hreach) as HI.
  pose proof HI as (Hr & _).
  repeat match goal with |- _ /\ _ => split end.
  - rewrite tick_eq. destruct (time_remaining t >? 0); eauto.
  - rewrite get_next_state_eq. eauto.
  - rewrite transition_eq. eauto.
  - rewrite reset_to_focus_eq. eauto.
  - rewrite stop_timer_eq. eauto.
  - unfold format_time, bind, self, ret. eauto.
  - rewrite (energy_drink_fill_level_eq t Hr). eauto.
  - rewrite (get_energy_drink_display_eq t Hr). eauto.
  - intros c. destruct (call_step c t HI) as (t' & Ht & _). eauto.
  - intros p. exists (duration p). split; [apply getitem_DURATIONS | apply duration_pos].
  - apply getitem_COLORS.
  - intros p r. unfold int_truediv. pose proof (duration_pos p) as Hd.
    destruct (Z.eqb_spec (duration p) 0) as [H0 | _]; [lia |].
    destruct (SFdiv prec emax (exact_int r) (exact_int (duration p))); discriminate.
Qed.

Lemma engine_total_witness :
  reachable (mkTimer FOCUS 1500 false 0 None)
  /\ exists s, format_time (mkTimer FOCUS 1500 false 0 None) =
               inr (s, mkTimer FOCUS 1500 false 0 None).
Proof.
  assert (Hreach : reachable (mkTimer FOCUS 1500 false 0 None)).
  { apply reachable_init. vm_compute. reflexivity. }
  split; [exact Hreach |].
  exact (proj1 (proj2 (proj2 (proj2 (proj2 (proj2 (engine_total _ Hreach))))))).
Defined.

(** * Further properties of the timer and of the callbacks *)

(** ** Breaks, cycles and skipping *)

(** X1.  From either break the transition goes to [FOCUS] with 1500
    seconds and leaves the counter, the running flag and the callback
    handle as they are. *)
Theorem transition_from_break (t : PomodoroTimer) :
  current_state t = SHORT_BREAK \/ current_state t = LONG_BREAK ->
  transition_to_next_state t =
  inr (tt, mkTimer FOCUS 1500 (is_running t) (focus_count t) (timer_id t)).
Proof.
  intros Hb. rewrite transition_eq, duration_table.
  destruct Hb as [-> | ->]; reflexivity.
Qed.

Lemma transition_from_break_witness :
  transition_to_next_state (mkTimer LONG_BREAK 0 true 3 None) =
  inr (tt, mkTimer FOCUS 1500 true 3 None).
Proof.
  apply (transition_from_break (mkTimer LONG_BREAK 0 true 3 None)).
  right; reflexivity.
Defined.

Lemma phase_trace_unfold (k : nat) (t : PomodoroTimer) :
  phase_trace (S k) t =
  match expire_and_transition t with
  | inl e => inl e
  | inr (_, t1) =>
      match phase_trace k t1 with
      | inl e => inl e
      | inr (rest, t2) => inr ((current_state t1, focus_count t1) :: rest, t2)
      end
  end.
Proof.
  cbn [phase_trace]. unfold bind, self, ret.
  destruct (expire_and_transition t) as [e | [[] t1]]; reflexivity.
Qed.

Lemma phase_trace_app (n m : nat) (t : PomodoroTimer) :
  phase_trace (n + m) t =
  match phase_trace n t with
  | inl e => inl e
  | inr (l1, t1) =>
      match phase_trace m t1 with
      | inl e => inl e
      | inr (l2, t2) => inr (l1 ++ l2, t2)
      end
  end.
Proof.
  revert t. induction n as [| n IH]; intros t.
  - cbn [Nat.add phase_trace]. unfold ret.
    destruct (phase_trace m t) as [e | [l2 t2]]; reflexivity.
  - change (S n + m)%nat with (S (n + m)). rewrite !phase_trace_unfold.
    destruct (expire_and_transition t) as [e | [[] t1]]; [reflexivity |].
    rewrite IH.
    destruct (phase_trace n t1) as [e | [l1 t2]]; [reflexivity |].
    destruct (phase_trace m t2) as [e | [l2 t3]]; reflexivity.
Qed.

(** X2.  From the start of a cycle (in [FOCUS], counter 0, time left) the
    eight phases of [long_cycle] repeat for ever: after [8 * k] expiries the
    timer is at the start of a cycle again, and a long break has been taken
    once in every eight phases, after the third focus session. *)
Theorem cycle_repeats (k : nat) (t : PomodoroTimer) :
  current_state t = FOCUS -> focus_count t = 0 -> 0 < time_remaining t ->
  phase_trace (8 * S k) t =
  inr (mjoin (replicate (S k) long_cycle),
       mkTimer FOCUS 1500 (is_running t) 0 (timer_id t)).
Proof.
  revert t. induction k as [| k IH]; intros t Hp Hc Hr.
  - change (8 * 1)%nat with 8%nat.
    rewrite (cycle_period t Hp Hc Hr), duration_table. reflexivity.
  - replace (8 * S (S k))%nat with (8 + 8 * S k)%nat by lia.
    rewrite phase_trace_app, (cycle_period t Hp Hc Hr), duration_table.
    rewrite IH by (cbn; first [reflexivity | lia]).
    reflexivity.
Qed.

Lemma cycle_repeats_witness :
  phase_trace 16 (mkTimer FOCUS 1500 false 0 None) =
  inr (long_cycle ++ long_cycle, mkTimer FOCUS 1500 false 0 None).
Proof.
  exact (cycle_repeats 1 (mkTimer FOCUS 1500 false 0 None)
           eq_refl eq_refl ltac:(cbn; lia)).
Defined.

(** X3.  Skipping a long break forfeits it: after Reset/Skip during a
    reachable long break the counter is still 3, so the focus session that
    follows ends with the counter wrapped to 0 and a short break. *)
Theorem skipped_long_break_is_lost (t : PomodoroTimer) :
  reachable t -> current_state t = LONG_BREAK ->
  exists t1 t2,
    reset_timer t = inr (tt, t1)
    /\ current_state t1 = FOCUS /\ focus_count t1 = 3
    /\ expire_and_transition t1 = inr (tt, t2)
    /\ current_state t2 = SHORT_BREAK /\ focus_count t2 = 0
    /\ time_remaining t2 = 300.
Proof.
  intros Hreach Hlb.
  destruct (reachable_Inv t Hreach) as (_ & _ & Hl). specialize (Hl Hlb).
  rewrite reset_timer_eq, Hl, duration_table.
  do 2 eexists. split; [reflexivity |]. split; [reflexivity |].
  split; [reflexivity |].
  rewrite expire_and_transition_eq by (cbn; lia).
  rewrite transition_eq. cbv -[duration]. rewrite duration_table.
  repeat split.
Qed.

Lemma skipped_long_break_is_lost_witness :
  reachable (mkTimer LONG_BREAK 900 false 3 None)
  /\ exists t1 t2,
       reset_timer (mkTimer LONG_BREAK 900 false 3 None) = inr (tt, t1)
       /\ expire_and_transition t1 = inr (tt, t2)
       /\ current_state t2 = SHORT_BREAK.
Proof.
  assert (Hreach : reachable (mkTimer LONG_BREAK 900 false 3 None)).
  { apply (reachable_from_init
             (repeat CallTransition 5)
             (mkTimer FOCUS 1500 false 0 None)); vm_compute; reflexivity. }
  split; [exact Hreach |].
  destruct (skipped_long_break_is_lost _ Hreach eq_refl)
    as (t1 & t2 & H1 & _ & _ & H2 & H3 & _).
  exists t1, t2. auto.
Defined.

(** ** The buttons *)

(** X4.  Reset/Skip never fails, whatever the state: it leaves a stopped
    timer in [FOCUS] with 1500 seconds, keeps the counter and the callback
    handle, and pressing it twice is the same as pressing it once. *)
Theorem reset_timer_spec (t : PomodoroTimer) :
  reset_timer t =
    inr (tt, mkTimer FOCUS 1500 false (focus_count t) (timer_id t))
  /\ (reset_timer ;; reset_timer) t = reset_timer t.
Proof.
  assert (H1 : forall u, reset_timer u =
                inr (tt, mkTimer FOCUS 1500 false (focus_count u) (timer_id u))).
  { intros u. rewrite reset_timer_eq, duration_table. reflexivity. }
  split; [apply H1 |].
  unfold bind. rewrite (H1 t), H1. reflexivity.
Qed.

(** X5.  A countdown callback that still fires after Pause, Stop or
    Reset/Skip changes nothing: the second is not taken off twice. *)
Theorem late_callback_is_ignored (after_id : string) (t : PomodoroTimer) :
  (pause_timer ;; countdown after_id) t = pause_timer t
  /\ (stop_timer ;; countdown after_id) t = stop_timer t
  /\ (reset_timer ;; countdown after_id) t = reset_timer t.
Proof.
  split; [| split]; unfold bind at 1.
  - reflexivity.
  - rewrite stop_timer_eq. reflexivity.
  - rewrite reset_timer_eq. reflexivity.
Qed.

Lemma transition_ignores_time (n : Z) (t : PomodoroTimer) :
  transition_to_next_state (set_time_remaining n t) = transition_to_next_state t.
Proof. rewrite !transition_eq. destruct t as [[] r b c i]; reflexivity. Qed.

Lemma transition_timer_id (i : option string) (t t1 : PomodoroTimer) :
  transition_to_next_state t = inr (tt, t1) ->
  transition_to_next_state (set_timer_id i t) = inr (tt, set_timer_id i t1).
Proof.
  rewrite !transition_eq. intros [= <-].
  destruct t as [[] r b c j]; reflexivity.
Qed.

Lemma countdown_idle (after_id : string) (t : PomodoroTimer) :
  is_running t = false -> countdown after_id t = inr (tt, t).
Proof. intros Hrun. unfold countdown, bind, self. rewrite Hrun. reflexivity. Qed.

Lemma countdown_decrements (after_id : string) (t : PomodoroTimer) :
  Inv t -> is_running t = true -> 2 <= time_remaining t ->
  countdown after_id t =
  inr (tt, mkTimer (current_state t) (time_remaining t - 1) true
             (focus_count t) (Some after_id)).
Proof.
  intros (Hr & _) Hrun H2. unfold countdown. run_py. rewrite Hrun.
  rewrite (tick_pos t ltac:(lia)). run_py. redraw.
  destruct (Z.eqb_spec (time_remaining t - 1) 0) as [H0 | _]; [lia |].
  rewrite Hrun. reflexivity.
Qed.

Lemma countdown_expires (after_id : string) (t t1 : PomodoroTimer) :
  Inv t -> is_running t = true -> time_remaining t = 1 ->
  transition_to_next_state t = inr (tt, t1) ->
  countdown after_id t = inr (tt, set_timer_id (Some after_id) t1).
Proof.
  intros HI Hrun H1 Ht. pose proof HI as (Hr & Hc & Hl).
  unfold countdown. run_py. rewrite Hrun.
  rewrite (tick_pos t ltac:(lia)). run_py. redraw.
  rewrite H1. change (1 - 1 =? 0) with true. cbv beta iota.
  change (mkTimer (current_state t) (1 - 1) (is_running t) (focus_count t)
            (timer_id t)) with (set_time_remaining 0 t).
  rewrite transition_ignores_time, Ht.
  destruct (transition_step t HI) as (t1' & Ht' & (Hr1 & _) & _).
  rewrite Ht in Ht'. injection Ht' as <-.
  redraw. reflexivity.
Qed.

(** ** The countdown loop *)

Lemma countdown_running_cases (after_id : string) (t : PomodoroTimer) :
  Inv t -> is_running t = true -> 1 <= time_remaining t ->
  exists t',
    countdown after_id t = inr (tt, t')
    /\ is_running t' = true /\ timer_id t' = Some after_id
    /\ ((2 <= time_remaining t
         /\ current_state t' = current_state t
         /\ time_remaining t' = time_remaining t - 1
         /\ focus_count t' = focus_count t)
        \/ (time_remaining t = 1
            /\ current_state t' <> current_state t
            /\ time_remaining t' = duration (current_state t')
            /\ transition_to_next_state t =
               inr (tt, set_timer_id (timer_id t) t'))).
Proof.
  intros HI Hrun H1.
  destruct (Z.eq_dec (time_remaining t) 1) as [Hone | Hmore].
  - destruct (transition_step t HI) as (t1 & Ht1 & _ & _ & Hfull & Hrun1 & Hid1).
    exists (set_timer_id (Some after_id) t1).
    split; [apply countdown_expires; assumption |].
    split; [destruct t1; cbn in *; congruence |].
    split; [destruct t1; reflexivity |]. right.
    split; [exact Hone |].
    split; [| split; [destruct t1; exact Hfull |]].
    + rewrite transition_eq in Ht1. injection Ht1 as <-.
      destruct t as [[] r b c i]; cbn; try discriminate.
      destruct (counted c >=? 3); discriminate.
    + rewrite Ht1. destruct t1; cbn in *. subst. reflexivity.
  - eexists. split; [apply countdown_decrements; [assumption .. | lia] |].
    cbn. split; [reflexivity |]. split; [reflexivity |]. left.
    repeat split; lia.
Qed.

Lemma gui_reachable_reachable (t : PomodoroTimer) :
  gui_reachable t -> reachable t.
Proof.
  induction 1 as [t Hinit | c t t' _ IH _ Hcall].
  - apply reachable_init, Hinit.
  - apply (reachable_call c t t' IH Hcall).
Qed.

Lemma gui_call_GuiInv (c : Call) (t t' : PomodoroTimer) :
  Inv t -> GuiInv t -> gui_call c = true -> call c t = inr (tt, t') ->
  GuiInv t'.
Proof.
  intros HI (H1 & Hid) Hgui Hcall.
  destruct c; try discriminate Hgui; cbn [call] in Hcall.
  - unfold start_timer in Hcall. revert Hcall. run_py.
    destruct (is_running t) eqn:Hrun; cbn [negb].
    + intros [= <-]. split; [exact H1 | intros _; exact (Hid eq_refl)].
    + destruct (countdown_running_cases after_id
                  (mkTimer (current_state t) (time_remaining t) true
                     (focus_count t) (timer_id t)) HI eq_refl H1)
        as (t1 & -> & Hrun1 & Hid1 & Hshape).
      intros [= <-]. split; [| eauto].
      destruct Hshape as [(H2 & _ & Hr & _) | (_ & _ & Hr & _)];
        rewrite Hr; cbn in *; [lia |].
      pose proof (duration_pos (current_state t1)). lia.
  - injection Hcall as <-. split; [exact H1 | discriminate].
  - rewrite stop_timer_eq in Hcall. injection Hcall as <-.
    split; [| discriminate]. cbn.
    pose proof (duration_pos (current_state t)). lia.
  - rewrite reset_timer_eq in Hcall. injection Hcall as <-.
    split; [| discriminate]. cbn. pose proof (duration_pos FOCUS). lia.
  - destruct (is_running t) eqn:Hrun.
    + destruct (countdown_running_cases after_id t HI Hrun H1)
        as (t1 & Ht1 & Hrun1 & Hid1 & Hshape).
      rewrite Hcall in Ht1. injection Ht1 as <-. split; [| eauto].
      destruct Hshape as [(H2 & _ & Hr & _) | (_ & _ & Hr & _)];
        rewrite Hr; [lia |].
      pose proof (duration_pos (current_state t')). lia.
    + rewrite (countdown_idle _ _ Hrun) in Hcall. injection Hcall as <-.
      split; [exact H1 |]. rewrite Hrun. discriminate.
Qed.

(** X6.  Between two callbacks of the window (the buttons and the
    scheduled countdown) the timer never rests at 0: at least one second
    and at most the duration of the phase is left, and a running timer
    always has the handle of a scheduled callback. *)
Theorem gui_never_rests_at_zero (t : PomodoroTimer) :
  gui_reachable t ->
  1 <= time_remaining t <= duration (current_state t)
  /\ (is_running t = true -> exists i, timer_id t = Some i).
Proof.
  intros Hgui.
  assert (HG : GuiInv t).
  { induction Hgui as [t Hinit | c t t' Hgui IH Hc Hcall].
    - unfold init in Hinit. rewrite getitem_DURATIONS, duration_table in Hinit.
      injection Hinit as <-. split; [cbn; lia | discriminate].
    - apply (gui_call_GuiInv c t t'); auto.
      apply reachable_Inv, gui_reachable_reachable, Hgui. }
  destruct (reachable_Inv t (gui_reachable_reachable t Hgui)) as (Hr & _).
  destruct HG as (H1 & Hid). repeat split; [exact H1 | lia | exact Hid].
Qed.

Lemma gui_reachable_from_init (cs : list Call) (t t' : PomodoroTimer) :
  init = inr t -> forallb gui_call cs = true ->
  run_calls cs t = inr (tt, t') -> gui_reachable t'.
Proof.
  intros Hinit. pose proof (gui_reachable_init t Hinit) as Hgui. clear Hinit.
  revert t Hgui. induction cs as [| c cs IH]; intros t Hgui Hall; cbn [run_calls].
  - intros [= <-]. exact Hgui.
  - cbn [forallb] in Hall. apply andb_prop in Hall as (Hc & Hall).
    unfold bind. destruct (call c t) as [e | [[] t1]] eqn:Hcall; [discriminate |].
    apply (IH t1); [| exact Hall].
    apply (gui_reachable_call c t t1 Hgui Hc Hcall).
Qed.

Lemma gui_never_rests_at_zero_witness :
  gui_reachable (mkTimer FOCUS 1498 true 0 (Some "after#2"))
  /\ 1 <= 1498 <= duration FOCUS.
Proof.
  assert (Hgui : gui_reachable (mkTimer FOCUS 1498 true 0 (Some "after#2"))).
  { apply (gui_reachable_from_init
             [CallStart "after#1"; CallCountdown "after#2"]
             (mkTimer FOCUS 1500 false 0 None)); vm_compute; reflexivity. }
  split; [exact Hgui |].
  exact (proj1 (gui_never_rests_at_zero _ Hgui)).
Defined.

(** X7.  Under the window every countdown callback on a running timer
    makes progress: it either takes exactly one second off and stays in
    the phase with the counter unchanged, or, with one second left, it
    moves to another phase with that phase's full duration; the timer
    keeps running and holds the handle of the next callback. *)
Theorem countdown_progress (after_id : string) (t : PomodoroTimer) :
  gui_reachable t -> is_running t = true ->
  exists t',
    countdown after_id t = inr (tt, t')
    /\ is_running t' = true /\ timer_id t' = Some after_id
    /\ ((2 <= time_remaining t
         /\ current_state t' = current_state t
         /\ time_remaining t' = time_remaining t - 1
         /\ focus_count t' = focus_count t)
        \/ (time_remaining t = 1
            /\ current_state t' <> current_state t
            /\ time_remaining t' = duration (current_state t'))).
Proof.
  intros Hgui Hrun.
  pose proof (reachable_Inv t (gui_reachable_reachable t Hgui)) as HI.
  destruct (gui_never_rests_at_zero t Hgui) as ((H1 & _) & _).
  destruct (countdown_running_cases after_id t HI Hrun H1)
    as (t' & Ht' & Hrun' & Hid' & Hshape).
  exists t'. repeat (split; [assumption |]).
  destruct Hshape as [Hdec | (Hone & Hne & Hfull & _)]; [left | right]; auto.
Qed.

Lemma countdown_progress_witness :
  gui_reachable (mkTimer FOCUS 1499 true 0 (Some "after#1"))
  /\ exists t', countdown "after#2" (mkTimer FOCUS 1499 true 0 (Some "after#1"))
                = inr (tt, t') /\ is_running t' = true.
Proof.
  assert (Hgui : gui_reachable (mkTimer FOCUS 1499 true 0 (Some "after#1"))).
  { apply (gui_reachable_from_init [CallStart "after#1"]
             (mkTimer FOCUS 1500 false 0 None)); vm_compute; reflexivity. }
  split; [exact Hgui |].
  destruct (countdown_progress "after#2" _ Hgui eq_refl) as (t' & Ht' & Hrun' & _).
  exists t'. split; assumption.
Defined.

(** X8.  A running timer that is at 0 when a callback fires is stuck:
    [tick] answers false at 0, so the countdown only takes a new handle and
    neither the time nor the phase ever changes.  (Such a state needs a
    direct call of [tick]; X6 shows that the window never produces it.) *)
Theorem countdown_stuck_at_zero (after_id : string) (t : PomodoroTimer) :
  reachable t -> is_running t = true -> time_remaining t = 0 ->
  countdown after_id t =
  inr (tt, mkTimer (current_state t) 0 true (focus_count t) (Some after_id)).
Proof.
  intros Hreach Hrun Hz. destruct (reachable_Inv t Hreach) as (Hr & _).
  unfold countdown. run_py. rewrite Hrun.
  rewrite (tick_nonpos t ltac:(lia)). redraw. rewrite Hz, Hrun. reflexivity.
Qed.

Lemma countdown_stuck_at_zero_witness :
  reachable (mkTimer FOCUS 0 true 0 (Some "after#1"))
  /\ countdown "after#2" (mkTimer FOCUS 0 true 0 (Some "after#1")) =
     inr (tt, mkTimer FOCUS 0 true 0 (Some "after#2")).
Proof.
  assert (Hreach : reachable (mkTimer FOCUS 0 true 0 (Some "after#1"))).
  { apply (reachable_from_init
             (CallStart "after#1" :: repeat CallTick 1499)
             (mkTimer FOCUS 1500 false 0 None)); vm_compute; reflexivity. }
  split; [exact Hreach |].
  exact (countdown_stuck_at_zero "after#2" _ Hreach eq_refl eq_refl).
Defined.

(** X9.  Start on a running timer does nothing.  On a stopped timer with
    at least two seconds left it sets the running flag and takes the first
    second off at once; hence Pause followed by Start costs one second each
    time, without a second having passed. *)
Theorem start_timer_spec (after_id : string) (t : PomodoroTimer) :
  reachable t -> 2 <= time_remaining t ->
  (is_running t = true -> start_timer after_id t = inr (tt, t))
  /\ (is_running t = false ->
      start_timer after_id t =
      inr (tt, mkTimer (current_state t) (time_remaining t - 1) true
                 (focus_count t) (Some after_id)))
  /\ (pause_timer ;; start_timer after_id) t =
     inr (tt, mkTimer (current_state t) (time_remaining t - 1) true
                (focus_count t) (Some after_id)).
Proof.
  intros Hreach H2. pose proof (reachable_Inv t Hreach) as HI.
  assert (Hstart : forall u, Inv u -> is_running u = false ->
            2 <= time_remaining u ->
            start_timer after_id u =
            inr (tt, mkTimer (current_state u) (time_remaining u - 1) true
                       (focus_count u) (Some after_id))).
  { intros u HIu Hrun Hu. unfold start_timer. run_py. rewrite Hrun. cbn [negb].
    apply (countdown_decrements after_id
             (mkTimer (current_state u) (time_remaining u) true
                (focus_count u) (timer_id u)) HIu eq_refl Hu). }
  split; [| split].
  - intros Hrun. unfold start_timer, bind, self. rewrite Hrun. reflexivity.
  - intros Hrun. apply Hstart; assumption.
  - unfold bind, pause_timer, assign.
    rewrite (Hstart (set_is_running false t) HI eq_refl H2). reflexivity.
Qed.

Lemma start_timer_spec_witness :
  reachable (mkTimer FOCUS 1500 false 0 None)
  /\ start_timer "after#1" (mkTimer FOCUS 1500 false 0 None) =
     inr (tt, mkTimer FOCUS 1499 true 0 (Some "after#1")).
Proof.
  assert (Hreach : reachable (mkTimer FOCUS 1500 false 0 None)).
  { apply reachable_init. vm_compute. reflexivity. }
  split; [exact Hreach |].
  exact (proj1 (proj2 (start_timer_spec "after#1" _ Hreach ltac:(cbn; lia)))
           eq_refl).
Defined.

(** X10.  The loop continues by itself: on a running timer with [n >= 1]
    seconds left, [n] countdown callbacks in a row have exactly the effect
    of the transition, except that the timer then holds the handle of the
    last callback; it is in the next phase with the full duration, still
    running. *)
Theorem countdowns_reach_next_phase (ids : list string) (t t1 : PomodoroTimer) :
  reachable t -> is_running t = true -> ids <> [] ->
  time_remaining t = Z.of_nat (length ids) ->
  transition_to_next_state t = inr (tt, t1) ->
  run_calls (CallCountdown <$> ids) t = inr (tt, set_timer_id (last ids) t1).
Proof.
  intros Hreach. pose proof (reachable_Inv t Hreach) as HI. clear Hreach.
  revert t t1 HI. induction ids as [| i ids IH]; intros t t1 HI Hrun Hne Hlen Ht;
    [congruence |].
  destruct ids as [| j ids].
  - cbn [fmap list_fmap run_calls call]. unfold bind at 1.
    rewrite (countdown_expires i t t1 HI Hrun Hlen Ht). reflexivity.
  - cbn [length] in Hlen.
    change (CallCountdown <$> i :: j :: ids)
      with (CallCountdown i :: (CallCountdown <$> j :: ids)).
    cbn [run_calls call]. unfold bind at 1.
    rewrite (countdown_decrements i t HI Hrun ltac:(lia)).
    set (t' := mkTimer _ _ _ _ _).
    assert (HI' : Inv t').
    { destruct HI as (Hr & Hc & Hl). subst t'. unfold Inv; cbn.
      repeat split; auto; lia. }
    assert (Ht' : transition_to_next_state t' = inr (tt, set_timer_id (Some i) t1)).
    { subst t'. rewrite <- Hrun.
      change (mkTimer (current_state t) (time_remaining t - 1) (is_running t)
                (focus_count t) (Some i))
        with (set_time_remaining (time_remaining t - 1) (set_timer_id (Some i) t)).
      rewrite transition_ignores_time. apply transition_timer_id, Ht. }
    rewrite (IH t' _ HI' eq_refl ltac:(discriminate)
               ltac:(subst t'; cbn [time_remaining length] in *; lia) Ht').
    destruct t1; reflexivity.
Qed.

Lemma countdowns_reach_next_phase_witness :
  reachable (mkTimer FOCUS 2 true 0 (Some "after#0"))
  /\ run_calls [CallCountdown "after#1"; CallCountdown "after#2"]
       (mkTimer FOCUS 2 true 0 (Some "after#0")) =
     inr (tt, mkTimer SHORT_BREAK 300 true 1 (Some "after#2")).
Proof.
  assert (Hreach : reachable (mkTimer FOCUS 2 true 0 (Some "after#0"))).
  { apply (reachable_from_init
             (CallStart "after#0" :: repeat CallTick 1497)
             (mkTimer FOCUS 1500 false 0 None)); vm_compute; reflexivity. }
  split; [exact Hreach |].
  apply (countdowns_reach_next_phase ["after#1"; "after#2"] _
           (mkTimer SHORT_BREAK 300 true 1 (Some "after#0")) Hreach);
    [reflexivity | discriminate | reflexivity | vm_compute; reflexivity].
Defined.

(** ** What is shown *)

Lemma format_time_eq (t : PomodoroTimer) :
  format_time t =
  inr (format_02d (time_remaining t / 60) +:+ ":"
       +:+ format_02d (time_remaining t mod 60), t).
Proof. reflexivity. Qed.

Lemma clock_checked :
  forallb (fun r => String.eqb
                      (format_02d (r / 60) +:+ ":" +:+ format_02d (r mod 60))
                      (clock_text r))
          (seqZ 0 6000) = true.
Proof. vm_compute. reflexivity. Qed.

Lemma digit_inj (a b : Z) :
  0 <= a <= 9 -> 0 <= b <= 9 -> digit a = digit b -> a = b.
Proof.
  intros Ha Hb Heq. apply (f_equal Ascii.nat_of_ascii) in Heq.
  unfold digit in Heq. rewrite !Ascii.nat_ascii_embedding in Heq by lia. lia.
Qed.

(** X11.  Below 100 minutes, so in every reachable state, [format_time]
    gives exactly five characters: the two digits of the minutes, a colon
    and the two digits of the seconds, zero-padded; the number of seconds
    can be read back from the text. *)
Theorem format_time_spec (t : PomodoroTimer) :
  0 <= time_remaining t < 6000 ->
  format_time t = inr (clock_text (time_remaining t), t)
  /\ String.length (clock_text (time_remaining t)) = 5%nat
  /\ (forall t', 0 <= time_remaining t' < 6000 ->
        clock_text (time_remaining t') = clock_text (time_remaining t) ->
        time_remaining t' = time_remaining t).
Proof.
  intros Hr. split; [| split].
  - rewrite format_time_eq. f_equal. f_equal.
    pose proof clock_checked as Hall. rewrite forallb_forall in Hall.
    apply String.eqb_eq, Hall, list_elem_of_In, elem_of_seqZ. lia.
  - reflexivity.
  - intros t' Hr'. generalize (time_remaining t'), (time_remaining t), Hr', Hr.
    clear. intros a b Ha Hb Heq. unfold clock_text in Heq.
    injection Heq as H1 H2 H3 H4.
    apply digit_inj in H1, H2, H3, H4; Z.div_mod_to_equations; lia.
Qed.

Lemma format_time_spec_witness :
  format_time (mkTimer FOCUS 1349 true 0 None) =
  inr ("22:29", mkTimer FOCUS 1349 true 0 None).
Proof.
  exact (proj1 (format_time_spec (mkTimer FOCUS 1349 true 0 None)
                  ltac:(cbn; lia))).
Defined.

(** X12.  Whatever the fill level, the picture has fifteen lines: the four
    lines of the top, ten bands and the bottom.  A level below 0 draws all
    ten bands empty and a level above 10 draws all ten filled; in between
    the lowest [level] bands are filled. *)
Theorem energy_drink_lines_clamped (n : Z) :
  energy_drink_lines n =
    [can_top; can_pull_tab; can_opening; can_neck]
    ++ replicate (Z.to_nat (10 - clamp_level n)) can_empty
    ++ replicate (Z.to_nat (clamp_level n)) can_liquid
    ++ [can_bottom]
  /\ length (energy_drink_lines n) = 15%nat.
Proof.
  assert (Heq : energy_drink_lines n = energy_drink_lines (clamp_level n)).
  { unfold clamp_level.
    destruct (Z.le_gt_cases n 0) as [Hlow | Hpos];
      [| destruct (Z.le_gt_cases 10 n) as [Hhigh | Hmid]].
    - rewrite Z.min_r, Z.max_l by lia.
      unfold energy_drink_lines.
      change (seqZ 0 10) with [0; 1; 2; 3; 4; 5; 6; 7; 8; 9]. cbn [foldl].
      rewrite !(proj2 (Z.ltb_lt _ _)) by lia. reflexivity.
    - rewrite Z.min_l, Z.max_r by lia.
      unfold energy_drink_lines.
      change (seqZ 0 10) with [0; 1; 2; 3; 4; 5; 6; 7; 8; 9]. cbn [foldl].
      rewrite !(proj2 (Z.ltb_ge _ _)) by lia. reflexivity.
    - rewrite Z.min_r, Z.max_r by lia. reflexivity. }
  assert (Hc : 0 <= clamp_level n <= 10) by (unfold clamp_level; lia).
  rewrite Heq, (energy_drink_lines_bands _ Hc). split; [reflexivity |].
  rewrite !length_app, !length_replicate. cbn [length]. lia.
Qed.

(** X13.  Within a phase the can never refills and drains by at most one
    band per second: in a reachable state the fill level after [tick] is
    the level before or one less. *)
Theorem tick_drains_one_band_at_most (t t' : PomodoroTimer) (b : bool) :
  reachable t -> tick t = inr (b, t') ->
  exists l l',
    energy_drink_fill_level t = inr (l, t)
    /\ energy_drink_fill_level t' = inr (l', t')
    /\ l - 1 <= l' <= l.
Proof.
  intros Hreach Htick. pose proof (reachable_Inv t Hreach) as HI.
  destruct (tick_step t HI) as (b1 & t1 & Ht1 & (Hr' & _) & _ & Hp & _).
  rewrite Htick in Ht1. injection Ht1 as <- <-.
  destruct HI as (Hr & _).
  rewrite (energy_drink_fill_level_eq t Hr), (energy_drink_fill_level_eq t' Hr').
  do 2 eexists. split; [reflexivity |]. split; [reflexivity |].
  rewrite Hp. rewrite tick_eq in Htick.
  assert (Hstep : time_remaining t - 1 <= time_remaining t' <= time_remaining t).
  { destruct (Z.gtb_spec (time_remaining t) 0); injection Htick as _ <-; cbn; lia. }
  rewrite Hp, duration_table in Hr'. rewrite duration_table in Hr |- *.
  destruct (current_state t); Z.div_mod_to_equations; lia.
Qed.

Lemma tick_drains_one_band_at_most_witness :
  reachable (mkTimer FOCUS 1350 true 0 (Some "after#1"))
  /\ exists l l',
       energy_drink_fill_level (mkTimer FOCUS 1350 true 0 (Some "after#1")) =
         inr (l, mkTimer FOCUS 1350 true 0 (Some "after#1"))
       /\ energy_drink_fill_level (mkTimer FOCUS 1349 true 0 (Some "after#1")) =
         inr (l', mkTimer FOCUS 1349 true 0 (Some "after#1"))
       /\ l - 1 <= l' <= l.
Proof.
  assert (Hreach : reachable (mkTimer FOCUS 1350 true 0 (Some "after#1"))).
  { apply (reachable_from_init
             (CallStart "after#1" :: repeat CallTick 149)
             (mkTimer FOCUS 1500 false 0 None)); vm_compute; reflexivity. }
  split; [exact Hreach |].
  exact (tick_drains_one_band_at_most _
           (mkTimer FOCUS 1349 true 0 (Some "after#1")) false Hreach eq_refl).
Defined.

Lemma fill_level_truncation_checked :
  forallb (fun p => forallb (fill_level_truncates (duration p))
                      (seqZ (- duration p) (2 * duration p + 1)))
          [FOCUS; SHORT_BREAK; LONG_BREAK] = true.
Proof. vm_compute. reflexivity. Qed.

(** X14.  The fill level is rounded towards zero, not down: for a number
    of seconds between minus the duration and the duration of the phase it
    is the truncated quotient of ten times the seconds by the duration, so
    a timer that is up to a tenth of the duration below zero still shows
    level 0. *)
Theorem fill_level_truncates_towards_zero (t : PomodoroTimer) :
  - duration (current_state t) <= time_remaining t <= duration (current_state t) ->
  energy_drink_fill_level t =
    inr (Z.quot (10 * time_remaining t) (duration (current_state t)), t)
  /\ (- duration (current_state t) < 10 * time_remaining t <= 0 ->
      energy_drink_fill_level t = inr (0, t)).
Proof.
  intros Hr.
  assert (Hq : energy_drink_fill_level t =
               inr (Z.quot (10 * time_remaining t) (duration (current_state t)), t)).
  { unfold energy_drink_fill_level, bind, self, lift. rewrite getitem_DURATIONS.
    pose proof fill_level_truncation_checked as Hall.
    rewrite forallb_forall in Hall.
    assert (Hp : In (current_state t) [FOCUS; SHORT_BREAK; LONG_BREAK])
      by (destruct (current_state t); simpl; tauto).
    specialize (Hall _ Hp). rewrite forallb_forall in Hall.
    assert (Hin : In (time_remaining t)
                    (seqZ (- duration (current_state t))
                       (2 * duration (current_state t) + 1))).
    { apply list_elem_of_In, elem_of_seqZ. lia. }
    specialize (Hall _ Hin). unfold fill_level_truncates in Hall.
    destruct (fill_level_of _ _) as [e | n]; [discriminate |].
    apply Z.eqb_eq in Hall. congruence. }
  split; [exact Hq |].
  intros Hsmall. rewrite Hq. do 2 f_equal.
  pose proof (duration_pos (current_state t)).
  apply Z.quot_small_iff; lia.
Qed.

Lemma fill_level_truncates_towards_zero_witness :
  energy_drink_fill_level (mkTimer FOCUS (-100) true 0 None) =
  inr (0, mkTimer FOCUS (-100) true 0 None).
Proof.
  apply (proj2 (fill_level_truncates_towards_zero
                  (mkTimer FOCUS (-100) true 0 None)
                  ltac:(vm_compute; split; discriminate)));
    vm_compute; split; [reflexivity | discriminate].
Defined.

Lemma update_display_full (t : PomodoroTimer) (d : Display) :
  0 <= time_remaining t <= duration (current_state t) ->
  update_display t = inr (d, t) ->
  getitem COLORS (current_state t) = inr (bg_color d)
  /\ state_label d = value (current_state t)
  /\ drink_label d =
     String.concat newline
       (energy_drink_lines (10 * time_remaining t / duration (current_state t)))
  /\ cycle_indicators d = map (fun i : Z => i <? focus_count t) (seqZ 0 4).
Proof.
  intros Hr. unfold update_display, bind, self, lift, ret.
  destruct (getitem_COLORS (current_state t)) as [c ->].
  rewrite (get_energy_drink_display_eq _ Hr). intros [= <-].
  repeat split.
Qed.

(** X15.  In a reachable state the progress indicator shows as many
    filled slots as focus sessions are counted, from the left, and the
    fourth slot is never filled. *)
Theorem cycle_indicators_spec (t : PomodoroTimer) :
  reachable t ->
  exists d,
    update_display t = inr (d, t)
    /\ cycle_indicators d =
       replicate (Z.to_nat (focus_count t)) true
       ++ replicate (4 - Z.to_nat (focus_count t)) false
    /\ cycle_indicators d !! 3%nat = Some false.
Proof.
  intros Hreach. destruct (reachable_Inv t Hreach) as (Hr & Hc & _).
  destruct (update_display_eq t Hr) as (d & Hd & Hind).
  exists d. split; [exact Hd |]. rewrite Hind. clear Hd Hind Hr.
  set (k := Z.to_nat (focus_count t)).
  assert (Hfc : focus_count t = Z.of_nat k) by lia.
  assert (Hk : (k <= 3)%nat) by lia.
  rewrite Hfc. clearbody k. clear Hfc Hc.
  do 4 (destruct k as [| k]; [split; reflexivity |]). lia.
Qed.

Lemma cycle_indicators_spec_witness :
  reachable (mkTimer LONG_BREAK 900 false 3 None)
  /\ exists d, update_display (mkTimer LONG_BREAK 900 false 3 None) =
               inr (d, mkTimer LONG_BREAK 900 false 3 None)
               /\ cycle_indicators d !! 3%nat = Some false.
Proof.
  assert (Hreach : reachable (mkTimer LONG_BREAK 900 false 3 None)).
  { apply (reachable_from_init
             (repeat CallTransition 5)
             (mkTimer FOCUS 1500 false 0 None)); vm_compute; reflexivity. }
  split; [exact Hreach |].
  destruct (cycle_indicators_spec _ Hreach) as (d & Hd & _ & Hlast).
  exists d. split; assumption.
Defined.

Lemma picture_levels_differ :
  forallb (fun l1 =>
             forallb (fun l2 =>
                        implb (String.eqb
                                 (String.concat newline (energy_drink_lines l1))
                                 (String.concat newline (energy_drink_lines l2)))
                              (l1 =? l2))
                     (seqZ 0 11))
          (seqZ 0 11) = true.
Proof. vm_compute. reflexivity. Qed.

(** X16.  What the window shows tells the state of a reachable timer:
    equal background colours or equal state labels mean the same phase,
    equal progress indicators mean the same counter, and equal pictures of
    the can mean the same fill level. *)
Theorem display_identifies_state (t1 t2 : PomodoroTimer) (d1 d2 : Display) :
  reachable t1 -> reachable t2 ->
  update_display t1 = inr (d1, t1) -> update_display t2 = inr (d2, t2) ->
  (bg_color d1 = bg_color d2 -> current_state t1 = current_state t2)
  /\ (state_label d1 = state_label d2 -> current_state t1 = current_state t2)
  /\ (cycle_indicators d1 = cycle_indicators d2 -> focus_count t1 = focus_count t2)
  /\ (drink_label d1 = drink_label d2 ->
      exists l, energy_drink_fill_level t1 = inr (l, t1)
                /\ energy_drink_fill_level t2 = inr (l, t2)).
Proof.
  intros Hreach1 Hreach2 Hd1 Hd2.
  destruct (reachable_Inv t1 Hreach1) as (Hr1 & Hc1 & _).
  destruct (reachable_Inv t2 Hreach2) as (Hr2 & Hc2 & _).
  destruct (update_display_full t1 d1 Hr1 Hd1) as (Hbg1 & Hlab1 & Hpic1 & Hind1).
  destruct (update_display_full t2 d2 Hr2 Hd2) as (Hbg2 & Hlab2 & Hpic2 & Hind2).
  split; [| split; [| split]].
  - intros Heq. rewrite Heq in Hbg1. rewrite <- Hbg2 in Hbg1.
    destruct (current_state t1), (current_state t2);
      first [reflexivity | vm_compute in Hbg1; discriminate Hbg1].
  - rewrite Hlab1, Hlab2.
    destruct (current_state t1), (current_state t2);
      first [reflexivity | discriminate].
  - rewrite Hind1, Hind2.
    rewrite <- (Z2Nat.id (focus_count t1)), <- (Z2Nat.id (focus_count t2)) by lia.
    assert (Hk1 : (Z.to_nat (focus_count t1) <= 3)%nat) by lia.
    assert (Hk2 : (Z.to_nat (focus_count t2) <= 3)%nat) by lia.
    revert Hk1 Hk2.
    generalize (Z.to_nat (focus_count t1)) as k1, (Z.to_nat (focus_count t2)) as k2.
    intros k1 k2 Hk1 Hk2.
    do 4 (destruct k1 as [| k1]; [do 4 (destruct k2 as [| k2];
            [first [reflexivity | discriminate] |]); lia |]). lia.
  - rewrite Hpic1, Hpic2. intros Heq.
    rewrite (energy_drink_fill_level_eq t1 Hr1), (energy_drink_fill_level_eq t2 Hr2).
    destruct (fill_level_range _ _ Hr1) as (Hl1 & _).
    destruct (fill_level_range _ _ Hr2) as (Hl2 & _).
    revert Heq Hl1 Hl2.
    generalize (10 * time_remaining t1 / duration (current_state t1)) as l1,
               (10 * time_remaining t2 / duration (current_state t2)) as l2.
    intros l1 l2 Heq Hl1 Hl2.
    pose proof picture_levels_differ as Hall. rewrite forallb_forall in Hall.
    assert (Hin1 : In l1 (seqZ 0 11)) by (apply list_elem_of_In, elem_of_seqZ; lia).
    specialize (Hall l1 Hin1). rewrite forallb_forall in Hall.
    assert (Hin2 : In l2 (seqZ 0 11)) by (apply list_elem_of_In, elem_of_seqZ; lia).
    specialize (Hall l2 Hin2).
    rewrite (proj2 (String.eqb_eq _ _) Heq) in Hall. cbn [implb] in Hall.
    apply Z.eqb_eq in Hall. subst l2. exists l1. split; reflexivity.
Qed.

Lemma display_identifies_state_witness :
  reachable (mkTimer FOCUS 1500 false 0 None)
  /\ reachable (mkTimer FOCUS 1500 true 0 (Some "after#1"))
  /\ focus_count (mkTimer FOCUS 1500 false 0 None) =
     focus_count (mkTimer FOCUS 1500 true 0 (Some "after#1")).
Proof.
  assert (Ha : reachable (mkTimer FOCUS 1500 false 0 None)).
  { apply reachable_init. vm_compute. reflexivity. }
  assert (Hb : reachable (mkTimer FOCUS 1500 true 0 (Some "after#1"))).
  { apply (reachable_from_init [CallStart "after#1"; CallResetToFocus]
             (mkTimer FOCUS 1500 false 0 None)); vm_compute; reflexivity. }
  split; [exact Ha |]. split; [exact Hb |].
  apply (proj1 (proj2 (proj2
           (display_identifies_state _ _
              (mkDisplay "#4CAF50" "Focus"
                 (String.concat newline (energy_drink_lines 10))
                 [false; false; false; false])
              (mkDisplay "#4CAF50" "Focus"
                 (String.concat newline (energy_drink_lines 10))
                 [false; false; false; false])
              Ha Hb ltac:(vm_compute; reflexivity) ltac:(vm_compute; reflexivity))))).
  reflexivity.
Defined.
